(** * compare_to_shortform.py: the comparison report script

    A shallow embedding of the script [compare_to_shortform.py] and the
    properties of the report it prints.

    The script is a straight-line sequence of [print] calls, three
    assignments of literal tables to module globals, and two [for] loops.
    It is embedded in a state-and-exception monad: the state holds the
    module globals and the object behind [sys.stdout]; an exception is an
    unbound global read or a failed write.

    A Python [str] is represented by the UTF-8 encoding of its text, one
    [ascii] per byte, which is what reaches a UTF-8 standard output.

    The last part places the script in the interpreter: the text stream in
    front of descriptor 1 (its encoding and its buffer), [sys.stdout] left
    at [None], the flush at shutdown and the exit status. *)

From Stdlib Require Import String Ascii List ZArith Lia Bool.
From Stdlib Require Import DecimalString.
Import ListNotations.

Local Open Scope list_scope.
Local Open Scope string_scope.

(** ** Python strings *)

Definition str := string.

(** The one-character string ["\n"]. *)
Definition LF : str := String (ascii_of_nat 10) EmptyString.

(** [s * n] on a [str] and a small [int], as the script uses it with
    [n = 80]: [n] copies of [s]. *)
Fixpoint str_repeat (s : str) (n : nat) : str :=
  match n with
  | O => ""
  | S k => s ++ str_repeat s k
  end.

Definition str_mul (s : str) (n : Z) : str := str_repeat s (Z.to_nat n).

(** ** The literal tables of the script *)

(** A [dict] literal keeps its keys in insertion order. *)
Definition dict := list (str * list str).

Definition keys (d : dict) : list str := map fst d.
Definition values (d : dict) : list (list str) := map snd d.

Definition shortform_features : dict :=
  [ ("STRUCTURE",
     [ "✓ Cover page with book title, author, and 2-3 paragraph introduction";
       "✓ '1-Page Summary' section with condensed overview";
       "✓ 8-12 main content sections organized by themes";
       "✓ Each section has multiple subsections with bold headers";
       "✓ Conclusion or final thoughts section" ]);
    ("SHORTFORM NOTES (CRITICAL!)",
     [ "✓ Gray background boxes with '(Shortform note: ...)' format";
       "✓ COMPARATIVE ANALYSIS citing 5-10 OTHER books by name";
       "✓ Author credentials and biographical context";
       "✓ Scientific/philosophical foundations explained";
       "✓ Critical analysis challenging the book's claims";
       "✓ Practical implementation strategies from other sources";
       "✓ Appears every 2-4 paragraphs throughout the summary" ]);
    ("CITATIONS & RESEARCH",
     [ "✓ Specific book titles in italics (e.g., *Thinking, Fast and Slow*)";
       "✓ Author names with credentials (e.g., 'Daniel Kahneman, Nobel laureate')";
       "✓ Concrete examples from cited sources";
       "✓ Cross-references between different books";
       "✓ 8-12 total external sources minimum" ]);
    ("VISUAL DESIGN",
     [ "✓ Yellow/gold horizontal bars separating major sections";
       "✓ Light gray background boxes for Shortform notes";
       "✓ Professional typography with clear hierarchy";
       "✓ Blue hyperlinks for cross-references";
       "✓ Logo watermark on pages" ]) ].

Definition missing : list str :=
  [ "1. NO GRAY BACKGROUND BOXES - Shortform notes must be in visible gray boxes";
    "2. NO COMPARATIVE ANALYSIS - Missing citations to other books";
    "3. NO AUTHOR CREDENTIALS - Not explaining who the experts are";
    "4. TOO GENERIC - Reads like a basic summary, not deep research";
    "5. NO SUBSECTIONS - Missing the detailed chapter breakdowns";
    "6. INSUFFICIENT RESEARCH DEPTH - Need 8-12 external book citations minimum";
    "7. NO CRITICAL ANALYSIS - Missing counterarguments and limitations";
    "8. NO PRACTICAL IMPLEMENTATION - Missing actionable steps from other sources" ].

Definition fixes : list str :=
  [ "1. UPDATE AI PROMPT: Force generation of 8-12 specific book citations";
    "2. UPDATE RENDERER: Add gray background boxes for all Shortform notes";
    "3. UPDATE PROMPT: Require author credentials for every citation";
    "4. UPDATE PROMPT: Mandate comparative analysis format";
    "5. UPDATE PROMPT: Require critical analysis and counterarguments";
    "6. UPDATE STRUCTURE: Generate 8-12 main sections with 2-4 subsections each";
    "7. UPDATE FREQUENCY: Insert Shortform note every 2-4 paragraphs";
    "8. UPDATE EXAMPLES: Provide actual Shortform note examples in the prompt" ].

(** ** The process around the script *)

(** What a process could consult besides its own literals.  The script
    imports nothing, so no operation below reads any field. *)
Record environment := {
  argv : list str;
  environ : list (str * str);
  clock : Z;
  entropy : Z
}.

(** The module globals.  A name is unbound until its first assignment; the
    [for] loops bind [item] and [fix] at module level. *)
Record globals := {
  var_shortform_features : option dict;
  var_missing : option (list str);
  var_item : option str;
  var_fixes : option (list str);
  var_fix : option str
}.

Definition no_globals : globals :=
  {| var_shortform_features := None; var_missing := None; var_item := None;
     var_fixes := None; var_fix := None |}.

(** Binding one global and leaving the others as they are. *)
Definition store_shortform_features (v : dict) (g : globals) : globals :=
  {| var_shortform_features := Some v;
     var_missing := var_missing g;
     var_item := var_item g;
     var_fixes := var_fixes g;
     var_fix := var_fix g |}.

Definition store_missing (v : list str) (g : globals) : globals :=
  {| var_shortform_features := var_shortform_features g;
     var_missing := Some v;
     var_item := var_item g;
     var_fixes := var_fixes g;
     var_fix := var_fix g |}.

Definition store_item (v : str) (g : globals) : globals :=
  {| var_shortform_features := var_shortform_features g;
     var_missing := var_missing g;
     var_item := Some v;
     var_fixes := var_fixes g;
     var_fix := var_fix g |}.

Definition store_fixes (v : list str) (g : globals) : globals :=
  {| var_shortform_features := var_shortform_features g;
     var_missing := var_missing g;
     var_item := var_item g;
     var_fixes := Some v;
     var_fix := var_fix g |}.

Definition store_fix (v : str) (g : globals) : globals :=
  {| var_shortform_features := var_shortform_features g;
     var_missing := var_missing g;
     var_item := var_item g;
     var_fixes := var_fixes g;
     var_fix := Some v |}.

(** The text stream behind [sys.stdout]: a write either succeeds and
    yields the stream after it, or fails. *)
Class Stream (dev : Type) := { write : dev -> str -> option dev }.

(** An in-memory text buffer ([io.StringIO]): every write appends. *)
#[export] Instance StringIO : Stream str :=
  {| write := fun buf s => Some (buf ++ s) |}.

(** A file object that has been closed in the process
    ([sys.stdout.close()]): every write is refused. *)
Inductive closed_stream := Closed.

#[export] Instance ClosedStream : Stream closed_stream :=
  {| write := fun _ _ => None |}.

(** A pipe whose reader goes away after [room] more writes. *)
Record pipe := { room : nat; sent : str }.

#[export] Instance Pipe : Stream pipe :=
  {| write := fun p s =>
       match room p with
       | O => None
       | S k => Some {| room := k; sent := sent p ++ s |}
       end |}.

(** Feeding a sequence of write requests to a stream, stopping at the
    first failure. *)
Fixpoint feed {dev} `{Stream dev} (d : dev) (reqs : list str) : option dev :=
  match reqs with
  | [] => Some d
  | s :: rest =>
      match write d s with
      | Some d' => feed d' rest
      | None => None
      end
  end.

Record state (dev : Type) := {
  world : environment;
  vars : globals;
  stdout : dev
}.

Arguments Build_state {dev} _ _ _.
Arguments world {dev} _.
Arguments vars {dev} _.
Arguments stdout {dev} _.

(** ** Exceptions and the monad of statements *)

Inductive exn :=
| NameError (name : str)
| OutputWriteFailure.

Inductive result (S A : Type) :=
| Ok (a : A) (s : S)
| Raise (e : exn).

Arguments Ok {S A} a s.
Arguments Raise {S A} e.

Definition M (dev A : Type) := state dev -> result (state dev) A.

Definition ret {dev A} (a : A) : M dev A := fun st => Ok a st.

Definition bind {dev A B} (m : M dev A) (k : A -> M dev B) : M dev B :=
  fun st =>
    match m st with
    | Ok a st' => k a st'
    | Raise e => Raise e
    end.

Declare Scope py_scope.
Delimit Scope py_scope with py.
Notation "x <- m ;; k" := (bind m (fun x => k))
  (at level 61, m at next level, right associativity) : py_scope.
Notation "m ;; k" := (bind m (fun _ => k))
  (at level 61, right associativity) : py_scope.

(** No statement of the script catches an exception, so there is no
    handler combinator: an exception ends the run. *)

Section Statements.
Context {dev : Type} `{Stream dev}.

Definition with_stdout (d : dev) (st : state dev) : state dev :=
  {| world := world st; vars := vars st; stdout := d |}.

Definition with_vars (g : globals) (st : state dev) : state dev :=
  {| world := world st; vars := g; stdout := stdout st |}.

(** [sys.stdout.write(s)] *)
Definition stdout_write (s : str) : M dev unit :=
  fun st =>
    match write (stdout st) s with
    | Some d => Ok tt (with_stdout d st)
    | None => Raise OutputWriteFailure
    end.

(** [print(s)]: the text, then the line terminator. *)
Definition print (s : str) : M dev unit :=
  (stdout_write s ;; stdout_write LF)%py.

(** An assignment statement: rebinding a global never fails. *)
Definition assign (store : globals -> globals) : M dev unit :=
  fun st => Ok tt (with_vars (store (vars st)) st).

Definition set_shortform_features (v : dict) := assign (store_shortform_features v).
Definition set_missing (v : list str) := assign (store_missing v).
Definition set_item (v : str) := assign (store_item v).
Definition set_fixes (v : list str) := assign (store_fixes v).
Definition set_fix (v : str) := assign (store_fix v).

(** Reading a global: its value, or [NameError] when unbound. *)
Definition load {A} (name : str) (field : globals -> option A) : M dev A :=
  fun st =>
    match field (vars st) with
    | Some v => Ok v st
    | None => Raise (NameError name)
    end.

(** [for x in xs: body], with the loop variable bound by [bind_var]
    before each round. *)
Fixpoint for_in (xs : list str) (bind_var : str -> M dev unit)
         (body : M dev unit) : M dev unit :=
  match xs with
  | [] => ret tt
  | x :: rest => (bind_var x ;; body ;; for_in rest bind_var body)%py
  end.

(** The script, top to bottom, with the table assigned to
    [shortform_features] left open. *)
Definition script (table : dict) : M dev unit :=
  (print (str_mul "=" 80) ;;
   print "SHORTFORM SUMMARY COMPARISON ANALYSIS" ;;
   print (str_mul "=" 80) ;;
   print (LF ++ "📚 ANALYZING REAL SHORTFORM SUMMARIES...") ;;
   set_shortform_features table ;;
   print (LF ++ "❌ WHAT'S MISSING FROM CURRENT IMPLEMENTATION:") ;;
   print (str_mul "-" 80) ;;
   set_missing missing ;;
   xs <- load "missing" var_missing ;;
   for_in xs set_item
     (item <- load "item" var_item ;; print ("  " ++ item)) ;;
   print (LF ++ str_mul "=" 80) ;;
   print "REQUIRED FIXES:" ;;
   print (str_mul "=" 80) ;;
   set_fixes fixes ;;
   ys <- load "fixes" var_fixes ;;
   for_in ys set_fix
     (fix_ <- load "fix" var_fix ;; print ("  " ++ fix_)) ;;
   print (LF ++ str_mul "=" 80))%py.

Definition run : M dev unit := script shortform_features.

End Statements.

(** A process in environment [w], with the globals [g] already bound,
    whose standard output is an empty in-memory buffer. *)
Definition captured (w : environment) (g : globals) : state str :=
  {| world := w; vars := g; stdout := "" |}.

(** No arguments, no environment variables, clock and entropy at zero. *)
Definition quiet_world : environment :=
  {| argv := []; environ := []; clock := 0; entropy := 0 |}.

(** The stream [run] leaves behind, or nothing when it raises. *)
Definition final_stdout {dev} (r : result (state dev) unit) : option dev :=
  match r with
  | Ok _ st => Some (stdout st)
  | Raise _ => None
  end.

(** ** The write requests of the script, read off its statements *)

Definition indent (s : str) : str := "  " ++ s.

(** The arguments of the successive [print] calls. *)
Definition printed : list str :=
  ([ str_mul "=" 80;
     "SHORTFORM SUMMARY COMPARISON ANALYSIS";
     str_mul "=" 80;
     (LF ++ "📚 ANALYZING REAL SHORTFORM SUMMARIES...")%string;
     (LF ++ "❌ WHAT'S MISSING FROM CURRENT IMPLEMENTATION:")%string;
     str_mul "-" 80 ]
   ++ map indent missing
   ++ [ (LF ++ str_mul "=" 80)%string; "REQUIRED FIXES:"; str_mul "=" 80 ]
   ++ map indent fixes
   ++ [ (LF ++ str_mul "=" 80)%string ])%list.

(** Each [print] asks for two writes. *)
Definition requests_of (args : list str) : list str :=
  flat_map (fun s => [s; LF]) args.

Definition requests : list str := requests_of printed.

(** Texts written one after the other. *)
Definition join (parts : list str) : str := fold_right append "" parts.

(** The report as one text. *)
Definition report : str := join requests.

(** The globals once the script has run with [table]. *)
Definition globals_after (table : dict) : globals :=
  {| var_shortform_features := Some table;
     var_missing := Some missing;
     var_item := Some (last missing "");
     var_fixes := Some fixes;
     var_fix := Some (last fixes "") |}.

(** ** Reading a text back *)

(** The newline-terminated lines of a text, without their terminators, and
    the unterminated rest after the last one. *)
Fixpoint split_lines (s : str) : list str * str :=
  match s with
  | EmptyString => ([], "")
  | String c rest =>
      let (ls, tl) := split_lines rest in
      if Ascii.eqb c (ascii_of_nat 10) then ("" :: ls, tl)
      else match ls with
           | [] => ([], String c tl)
           | l :: ls' => (String c l :: ls', tl)
           end
  end.

Definition unlines (ls : list str) : str :=
  join (map (fun l => l ++ LF) ls).

(** Every character of [s] is [c]. *)
Fixpoint all_chars (c : ascii) (s : str) : bool :=
  match s with
  | EmptyString => true
  | String c' rest => Ascii.eqb c' c && all_chars c rest
  end.

(** A separator line drawn with [c]: not empty and nothing but [c]. *)
Definition is_separator (c : ascii) (l : str) : bool :=
  negb (l =? "") && all_chars c l.

(** Number of positions of [hay] at which [needle] starts. *)
Fixpoint count_sub (needle hay : str) : nat :=
  (if String.prefix needle hay then 1 else 0) +
  match hay with
  | EmptyString => 0
  | String _ rest => count_sub needle rest
  end.

Definition occurs (needle hay : str) : bool :=
  negb (count_sub needle hay =? 0)%nat.

Definition count_lines (p : str -> bool) (ls : list str) : nat :=
  length (filter p ls).

Definition mem (l : str) (ls : list str) : bool := existsb (String.eqb l) ls.

(** The ordinal prefix of the [n]th numbered entry: ["1."], ["2."], ... *)
Definition ordinal (n : nat) : str :=
  NilEmpty.string_of_uint (Nat.to_uint n) ++ ".".

(** Every string held by a table: its keys, then its feature strings. *)
Definition table_strings (d : dict) : list str :=
  (keys d ++ concat (values d))%list.

(** ** Statements as sequences of write requests *)

(** [emits m reqs upd]: from any state, [m] asks the stream for the writes
    [reqs] in order; when one fails it raises [OutputWriteFailure] at once,
    and when all succeed it ends normally with the globals changed by
    [upd] and the environment untouched. *)
Definition emits {dev} `{Stream dev} (m : M dev unit) (reqs : list str)
           (upd : globals -> globals) : Prop :=
  forall st : state dev,
    m st = match feed (stdout st) reqs with
           | Some d =>
               Ok tt {| world := world st; vars := upd (vars st); stdout := d |}
           | None => Raise OutputWriteFailure
           end.

(** The globals after a loop has bound its variable to each element. *)
Definition rebind (store : str -> globals -> globals) (xs : list str)
           (g : globals) : globals :=
  fold_left (fun g' x => store x g') xs g.

(** The lines of the report. *)
Definition report_lines : list str := fst (split_lines report).


(** ** The interpreter around the script *)

(** In a process started with descriptor 1 closed, [sys.stdout] is [None]:
    [print] then returns at once and nothing is written. *)
Inductive no_stdout := NoStdout.

#[export] Instance NoneStdout : Stream no_stdout :=
  {| write := fun d _ => Some d |}.

(** The encoding of a text stream, with the [strict] error handler: text
    it cannot encode is refused. *)
Inductive codec := Utf8 | Ascii.

(** A text is plain ASCII when every byte of its UTF-8 form is below 128. *)
Definition is_ascii (s : str) : bool :=
  forallb (fun b => (nat_of_ascii b <? 128)%nat) (list_ascii_of_string s).

Definition encodable (c : codec) (s : str) : bool :=
  match c with
  | Utf8 => true
  | Ascii => is_ascii s
  end.

(** The size in bytes of the buffer in front of a descriptor. *)
Definition buffer_size : Z := 8192.

(** The text stream the interpreter puts in front of descriptor 1: an
    encoding, the text not yet handed to the descriptor, and the descriptor.
    Output to a file or a pipe is held back in a buffer; with
    [write_through] (the interpreter's [-u]) nothing is held back. *)
Record text_io (raw : Type) := {
  codec_of : codec;
  write_through : bool;
  pending : str;
  descriptor : raw
}.

Arguments Build_text_io {raw} _ _ _ _.
Arguments codec_of {raw} _.
Arguments write_through {raw} _.
Arguments pending {raw} _.
Arguments descriptor {raw} _.

(** A write to the text stream.  Text the encoding cannot encode is
    refused.  Otherwise the text goes to the descriptor at once when
    nothing is held back; else it is kept pending while it fits the buffer,
    and when it does not, what was pending goes to the descriptor first. *)
Definition text_write {raw} `{Stream raw} (t : text_io raw) (s : str)
  : option (text_io raw) :=
  if encodable (codec_of t) s then
    if write_through t then
      match write (descriptor t) s with
      | Some r =>
          Some {| codec_of := codec_of t; write_through := true;
                  pending := pending t; descriptor := r |}
      | None => None
      end
    else if (Z.of_nat (String.length (pending t ++ s)) <=? buffer_size)%Z then
      Some {| codec_of := codec_of t; write_through := false;
              pending := pending t ++ s; descriptor := descriptor t |}
    else
      match write (descriptor t) (pending t) with
      | Some r =>
          Some {| codec_of := codec_of t; write_through := false;
                  pending := s; descriptor := r |}
      | None => None
      end
  else None.

#[export] Instance TextIO {raw} `{Stream raw} : Stream (text_io raw) :=
  {| write := text_write |}.

(** What the interpreter does to [sys.stdout] when it shuts down: hand
    over what is still pending.  This can fail. *)
Class Shutdown (dev : Type) := { flush : dev -> option dev }.


(** Nothing is flushed when [sys.stdout] is [None] or a closed file. *)
#[export] Instance NoneStdout_shutdown : Shutdown no_stdout :=
  {| flush := fun d => Some d |}.

#[export] Instance ClosedStream_shutdown : Shutdown closed_stream :=
  {| flush := fun d => Some d |}.










(** * Properties *)

Section Traces.
Context {dev : Type} `{Stream dev}.

Lemma feed_app (d : dev) (l1 l2 : list str) :
  feed d (l1 ++ l2)%list =
  match feed d l1 with
  | Some d' => feed d' l2
  | None => None
  end.
Proof.
  revert d. induction l1 as [|s l1 IH]; intro d; simpl.
  - reflexivity.
  - destruct (write d s) as [d'|]; [apply IH | reflexivity].
Qed.

Lemma emits_eq (m : M dev unit) l l' u u' :
  emits m l u -> l = l' -> (forall g, u g = u' g) -> emits m l' u'.
Proof.
  intros Hm <- Hu st. rewrite (Hm st).
  destruct (feed (stdout st) l); [rewrite Hu|]; reflexivity.
Qed.

Lemma emits_print (s : str) : emits (print s) [s; LF] (fun g => g).
Proof.
  intro st. unfold print, bind, stdout_write. simpl.
  destruct (write (stdout st) s) as [d|]; simpl; [|reflexivity].
  destruct (write d LF); reflexivity.
Qed.

Lemma emits_assign (store : globals -> globals) :
  emits (assign store) [] store.
Proof. intro st. reflexivity. Qed.

Lemma emits_seq (m1 m2 : M dev unit) l1 l2 u1 u2 :
  emits m1 l1 u1 -> emits m2 l2 u2 ->
  emits (m1 ;; m2)%py (l1 ++ l2)%list (fun g => u2 (u1 g)).
Proof.
  intros H1 H2 st. unfold bind. rewrite (H1 st), feed_app.
  destruct (feed (stdout st) l1) as [d|]; [|reflexivity].
  rewrite (H2 _). reflexivity.
Qed.

(** A global read right after its assignment sees the assigned value,
    whatever was bound before: no [NameError]. *)
Lemma emits_assign_load {A} (store : globals -> globals) (name : str)
      (field : globals -> option A) (v : A) (k : A -> M dev unit) l u :
  (forall g, field (store g) = Some v) ->
  emits (k v) l u ->
  emits (assign store ;; x <- load name field ;; k x)%py l
        (fun g => u (store g)).
Proof.
  intros Hf Hk st. unfold bind, assign, load. simpl.
  rewrite Hf. rewrite (Hk _). reflexivity.
Qed.

(** A loop that prints its variable, indented, once per element. *)
Lemma emits_for (name : str) (field : globals -> option str)
      (store : str -> globals -> globals) (xs : list str) :
  (forall v g, field (store v g) = Some v) ->
  emits (for_in xs (fun x => assign (store x))
           (v <- load name field ;; print ("  " ++ v))%py)
        (requests_of (map indent xs)) (rebind store xs).
Proof.
  intro Hf. induction xs as [|x xs IH]; intro st.
  - destruct st. reflexivity.
  - cbn [for_in]. unfold bind at 1 2 3. unfold assign at 1. unfold load at 1.
    cbn [vars with_vars]. rewrite Hf, (emits_print _ _).
    cbn [map requests_of flat_map app feed stdout with_vars world vars
         rebind fold_left].
    change (indent x) with ("  " ++ x).
    destruct (write (stdout st) ("  " ++ x)) as [d|]; [|reflexivity].
    destruct (write d LF) as [d'|]; [|reflexivity].
    rewrite (IH _). reflexivity.
Qed.

(** The script asks for exactly the writes [requests], and ends with
    all five globals bound. *)
Lemma script_emits (table : dict) :
  emits (script table) requests (fun _ => globals_after table).
Proof.
  eapply emits_eq.
  - unfold script, set_shortform_features, set_missing, set_fixes,
      set_item, set_fix.
    do 4 (eapply emits_seq; [apply emits_print|]).
    eapply emits_seq; [apply emits_assign|].
    do 2 (eapply emits_seq; [apply emits_print|]).
    eapply emits_assign_load; [intro; reflexivity|]. cbv beta.
    eapply emits_seq; [apply emits_for; intros; reflexivity|].
    do 3 (eapply emits_seq; [apply emits_print|]).
    eapply emits_assign_load; [intro; reflexivity|]. cbv beta.
    eapply emits_seq; [apply emits_for; intros; reflexivity|].
    apply emits_print.
  - reflexivity.
  - intro g. reflexivity.
Qed.

Lemma run_spec (st : state dev) :
  run st = match feed (stdout st) requests with
           | Some d =>
               Ok tt {| world := world st;
                        vars := globals_after shortform_features;
                        stdout := d |}
           | None => Raise OutputWriteFailure
           end.
Proof. apply (script_emits shortform_features). Qed.

End Traces.

(** ** Texts *)

Lemma str_app_nil_r (s : str) : s ++ "" = s.
Proof. induction s as [|c s IH]; simpl; [|rewrite IH]; reflexivity. Qed.

Lemma str_app_assoc (a b c : str) : (a ++ b) ++ c = a ++ (b ++ c).
Proof. induction a as [|x a IH]; simpl; [|rewrite IH]; reflexivity. Qed.

Lemma str_length_app (a b : str) :
  String.length (a ++ b) = (String.length a + String.length b)%nat.
Proof. induction a as [|x a IH]; simpl; [|rewrite IH]; reflexivity. Qed.

Lemma all_chars_app (c : ascii) (a b : str) :
  all_chars c (a ++ b) = all_chars c a && all_chars c b.
Proof.
  induction a as [|x a IH]; simpl.
  - reflexivity.
  - rewrite IH. apply andb_assoc.
Qed.

(** [s * n] is [n] times as long as [s]. *)
Lemma str_mul_length (s : str) (n : Z) :
  String.length (str_mul s n) = (String.length s * Z.to_nat n)%nat.
Proof.
  unfold str_mul. induction (Z.to_nat n) as [|k IH]; simpl.
  - lia.
  - rewrite str_length_app, IH. lia.
Qed.

(** A repeated character is nothing but that character. *)
Lemma str_mul_all_chars (c : ascii) (n : Z) :
  all_chars c (str_mul (String c "") n) = true.
Proof.
  unfold str_mul. induction (Z.to_nat n) as [|k IH]; simpl.
  - reflexivity.
  - rewrite Ascii.eqb_refl. exact IH.
Qed.

(** Splitting loses nothing: the lines, each with its terminator, then
    the rest, give the text back. *)
Lemma split_lines_join (s : str) :
  s = unlines (fst (split_lines s)) ++ snd (split_lines s).
Proof.
  unfold unlines, join. induction s as [|c s IH]; simpl.
  - reflexivity.
  - destruct (split_lines s) as [ls tl]. simpl in IH.
    destruct (Ascii.eqb_spec c (ascii_of_nat 10)) as [->|Hc].
    + simpl. f_equal. exact IH.
    + destruct ls as [|l ls]; simpl in *; f_equal; exact IH.
Qed.

(** No line holds a terminator. *)
Lemma split_lines_no_LF (s : str) :
  forallb (fun l => negb (occurs LF l)) (fst (split_lines s)) = true
  /\ occurs LF (snd (split_lines s)) = false.
Proof.
  induction s as [|c s [IHl IHt]]; simpl.
  - split; reflexivity.
  - destruct (split_lines s) as [ls tl]. simpl in IHl, IHt.
    destruct (Ascii.eqb_spec c (ascii_of_nat 10)) as [->|Hc].
    + simpl. split; [exact IHl | exact IHt].
    + assert (Hocc : forall t, occurs LF t = false ->
                               occurs LF (String c t) = false).
      { intros t Ht. unfold occurs in *. cbn [count_sub].
        assert (P : String.prefix LF (String c t) = false).
        { unfold LF. cbn [String.prefix].
          destruct (ascii_dec (ascii_of_nat 10) c);
            [congruence | reflexivity]. }
        rewrite P. exact Ht. }
      destruct ls as [|l ls]; simpl in *.
      * split; [reflexivity | apply Hocc, IHt].
      * apply andb_true_iff in IHl as [Hl Hls]. split; [|exact IHt].
        apply andb_true_iff. split; [|exact Hls].
        apply negb_true_iff, Hocc, negb_true_iff, Hl.
Qed.

(** ** Streams *)

Lemma feed_StringIO (buf : str) (reqs : list str) :
  feed buf reqs = Some (buf ++ join reqs).
Proof.
  revert buf. induction reqs as [|s reqs IH]; intro buf; simpl.
  - rewrite str_app_nil_r. reflexivity.
  - rewrite IH, str_app_assoc. reflexivity.
Qed.

Lemma feed_ClosedStream (d : closed_stream) (reqs : list str) :
  feed d reqs = match reqs with [] => Some d | _ :: _ => None end.
Proof. destruct reqs; reflexivity. Qed.

Lemma feed_Pipe (p : pipe) (reqs : list str) :
  feed p reqs =
  if (length reqs <=? room p)%nat
  then Some {| room := room p - length reqs; sent := sent p ++ join reqs |}
  else None.
Proof.
  revert p. induction reqs as [|s reqs IH]; intros [n t]; simpl.
  - rewrite Nat.sub_0_r, str_app_nil_r. reflexivity.
  - destruct n as [|n]; simpl; [reflexivity|].
    rewrite IH. simpl. rewrite str_app_assoc. reflexivity.
Qed.

(** ** Captured runs *)

Lemma requests_length : length requests = 52%nat.
Proof. vm_compute. reflexivity. Qed.

Lemma script_captured (table : dict) (w : environment) (g : globals) :
  script table (captured w g) =
  Ok tt {| world := w; vars := globals_after table; stdout := report |}.
Proof.
  rewrite (script_emits table (captured w g)). simpl stdout.
  rewrite feed_StringIO. reflexivity.
Qed.

Lemma run_captured (w : environment) (g : globals) :
  run (captured w g) =
  Ok tt {| world := w; vars := globals_after shortform_features;
           stdout := report |}.
Proof. apply script_captured. Qed.

Lemma final_stdout_captured (w : environment) (g : globals) :
  final_stdout (run (captured w g)) = Some report.
Proof. rewrite run_captured. reflexivity. Qed.

Lemma split_lines_report : split_lines report = (report_lines, "").
Proof. vm_compute. reflexivity. Qed.

Lemma report_unlines : report = unlines report_lines.
Proof.
  pose proof (split_lines_join report) as E.
  rewrite split_lines_report in E. cbn [fst snd] in E.
  rewrite str_app_nil_r in E. exact E.
Qed.

(** ** The report, claim by claim *)

Ltac on_captured_report :=
  intros w g; exists report, report_lines;
  split; [apply final_stdout_captured|];
  split; [apply split_lines_report|].

(** C1.  The script binds [shortform_features] to a table of 4 categories
    and never prints it: no line of the report is a category name or a
    feature string, so the number of category headers printed is 0, not 4,
    and the header announcing the analysis is followed at once by the
    header of the missing items. *)
Theorem category_headers_not_printed :
  forall (w : environment) (g : globals),
  exists out ls,
    final_stdout (run (captured w g)) = Some out /\
    split_lines out = (ls, "") /\
    length (keys shortform_features) = 4%nat /\
    count_lines (fun l => mem l (keys shortform_features)) ls = 0%nat /\
    count_lines (fun l => mem l (concat (values shortform_features))) ls = 0%nat /\
    firstn 3 (skipn 4 ls) =
      [ "📚 ANALYZING REAL SHORTFORM SUMMARIES..."; "";
        "❌ WHAT'S MISSING FROM CURRENT IMPLEMENTATION:" ].
Proof.
  on_captured_report. vm_compute. repeat split.
Qed.

(** C2.  The report has exactly 8 missing-item lines: lines 9 to 16 are the
    entries of [missing], in list order, each on its own line behind two
    spaces, and the [n]th entry begins with the ordinal [n] and a dot. *)
Theorem missing_items_printed :
  forall (w : environment) (g : globals),
  exists out ls,
    final_stdout (run (captured w g)) = Some out /\
    split_lines out = (ls, "") /\
    length missing = 8%nat /\
    firstn 8 (skipn 8 ls) = map (fun entry => "  " ++ entry) missing /\
    Forall2 (fun n entry => String.prefix (ordinal n) entry = true)
            (seq 1 8) missing /\
    Forall2 (fun n l => String.prefix ("  " ++ ordinal n) l = true)
            (seq 1 8) (firstn 8 (skipn 8 ls)) /\
    count_lines (fun l => mem l (map indent missing)) ls = 8%nat.
Proof.
  on_captured_report. vm_compute. repeat split; repeat constructor.
Qed.

(** C3.  The report has exactly 8 fix lines: lines 21 to 28 are the entries
    of [fixes], in list order, each on its own line behind two spaces, and
    the [n]th entry begins with the ordinal [n] and a dot. *)
Theorem fixes_printed :
  forall (w : environment) (g : globals),
  exists out ls,
    final_stdout (run (captured w g)) = Some out /\
    split_lines out = (ls, "") /\
    length fixes = 8%nat /\
    firstn 8 (skipn 20 ls) = map (fun entry => "  " ++ entry) fixes /\
    Forall2 (fun n entry => String.prefix (ordinal n) entry = true)
            (seq 1 8) fixes /\
    Forall2 (fun n l => String.prefix ("  " ++ ordinal n) l = true)
            (seq 1 8) (firstn 8 (skipn 20 ls)) /\
    count_lines (fun l => mem l (map indent fixes)) ls = 8%nat.
Proof.
  on_captured_report. vm_compute. repeat split; repeat constructor.
Qed.

Lemma separators_checked :
  forallb (fun l => implb (is_separator "=" l || is_separator "-" l)
                          (String.length l =? 80)%nat)
          report_lines = true.
Proof. vm_compute. reflexivity. Qed.

(** C4.  Every line of the report that is a separator of [=] characters or
    a separator of [-] characters is exactly 80 characters long. *)
Theorem separator_lines_have_80_chars :
  forall (w : environment) (g : globals) (out : str) (ls : list str)
         (tl l : str),
    final_stdout (run (captured w g)) = Some out ->
    split_lines out = (ls, tl) ->
    In l ls ->
    is_separator "=" l = true \/ is_separator "-" l = true ->
    String.length l = 80%nat.
Proof.
  intros w g out ls tl l Hout Hsplit Hin Hsep.
  rewrite final_stdout_captured in Hout.
  assert (Eout : out = report) by congruence. subst out.
  rewrite split_lines_report in Hsplit.
  assert (Els : ls = report_lines) by congruence. subst ls.
  pose proof separators_checked as Hall.
  rewrite forallb_forall in Hall. specialize (Hall l Hin).
  apply orb_true_iff in Hsep.
  destruct (is_separator "=" l || is_separator "-" l); [|discriminate].
  apply Nat.eqb_eq. exact Hall.
Qed.

Lemma separator_lines_have_80_chars_witness :
  In (str_mul "-" 80) report_lines /\ String.length (str_mul "-" 80) = 80%nat.
Proof.
  assert (Hin : In (str_mul "-" 80) report_lines).
  { vm_compute. do 7 right. left. reflexivity. }
  split; [exact Hin|].
  apply (separator_lines_have_80_chars quiet_world no_globals
           report report_lines "" (str_mul "-" 80)).
  - vm_compute. reflexivity.
  - vm_compute. reflexivity.
  - exact Hin.
  - right. vm_compute. reflexivity.
Defined.

(** C5.  The first three lines of the captured output are a line of 80
    [=] characters, the title, and a second line of 80 [=] characters. *)
Theorem report_opens_with_banner :
  forall (w : environment) (g : globals),
  exists out ls,
    final_stdout (run (captured w g)) = Some out /\
    split_lines out = (ls, "") /\
    firstn 3 ls = [ str_mul "=" 80;
                    "SHORTFORM SUMMARY COMPARISON ANALYSIS";
                    str_mul "=" 80 ] /\
    String.length (str_mul "=" 80) = 80%nat /\
    all_chars "=" (str_mul "=" 80) = true.
Proof.
  on_captured_report. split; [vm_compute; reflexivity|]. split.
  - rewrite str_mul_length. reflexivity.
  - apply str_mul_all_chars.
Qed.

(** C6.  The text [REQUIRED FIXES:] starts at exactly one position of the
    report; one line holds it, that line is the text itself, and the lines
    just before and just after it are lines of 80 [=] characters. *)
Theorem required_fixes_header_once :
  forall (w : environment) (g : globals),
  exists out ls,
    final_stdout (run (captured w g)) = Some out /\
    split_lines out = (ls, "") /\
    count_sub "REQUIRED FIXES:" out = 1%nat /\
    filter (occurs "REQUIRED FIXES:") ls = [ "REQUIRED FIXES:" ] /\
    (exists before after,
        ls = (before ++ [ str_mul "=" 80; "REQUIRED FIXES:"; str_mul "=" 80 ]
                     ++ after)%list /\
        length before = 17%nat /\
        count_lines (occurs "REQUIRED FIXES:") before = 0%nat /\
        count_lines (occurs "REQUIRED FIXES:") after = 0%nat) /\
    String.length (str_mul "=" 80) = 80%nat /\
    all_chars "=" (str_mul "=" 80) = true.
Proof.
  on_captured_report.
  split; [vm_compute; reflexivity|].
  split; [vm_compute; reflexivity|].
  split.
  - exists (firstn 17 report_lines), (skipn 20 report_lines).
    vm_compute. repeat split.
  - split; [rewrite str_mul_length; reflexivity | apply str_mul_all_chars].
Qed.

(** C10.  The report is 30 newline-terminated lines and nothing after the
    last; 4 of them are empty, 5 are lines of 80 [=] characters, 1 is a
    line of 80 [-] characters, and there is no other separator line. *)
Theorem report_line_census :
  forall (w : environment) (g : globals),
  exists out ls,
    final_stdout (run (captured w g)) = Some out /\
    split_lines out = (ls, "") /\
    out = unlines ls /\
    length ls = 30%nat /\
    count_lines (String.eqb "") ls = 4%nat /\
    count_lines (String.eqb (str_mul "=" 80)) ls = 5%nat /\
    count_lines (is_separator "=") ls = 5%nat /\
    count_lines (String.eqb (str_mul "-" 80)) ls = 1%nat /\
    count_lines (is_separator "-") ls = 1%nat /\
    String.length (str_mul "=" 80) = 80%nat /\
    String.length (str_mul "-" 80) = 80%nat.
Proof.
  on_captured_report.
  split; [apply report_unlines|].
  vm_compute. repeat split.
Qed.

(** ** The feature table *)

(** C9, as stated, fails: the category name [STRUCTURE] is a key of
    [shortform_features] and occurs in the output. *)
Lemma category_name_occurs_in_report :
  ~ (forall s out : str,
        In s (table_strings shortform_features) ->
        final_stdout (run (captured quiet_world no_globals)) = Some out ->
        occurs s out = false).
Proof.
  intro Habsent.
  specialize (Habsent "STRUCTURE" report (or_introl eq_refl)
                      (final_stdout_captured quiet_world no_globals)).
  vm_compute in Habsent. discriminate Habsent.
Qed.

(** C9, amended.  The table is bound to [shortform_features] and no
    statement reads it: on any stream the output is the same for any two
    tables.  No feature string occurs anywhere in the report, and no
    category name other than [STRUCTURE] does; [STRUCTURE] occurs once,
    inside the sixth fix line; no line of the report is a category name or
    a feature string. *)
Theorem feature_table_never_printed :
  forall (dev : Type) (HS : Stream dev) (st : state dev) (t1 t2 : dict)
         (w : environment) (g : globals),
    final_stdout (script t1 st) = final_stdout (script t2 st) /\
    script t1 (captured w g) =
      Ok tt {| world := w; vars := globals_after t1; stdout := report |} /\
    var_shortform_features (globals_after t1) = Some t1 /\
    forallb (fun s => negb (occurs s report))
            (concat (values shortform_features)) = true /\
    forallb (fun k => negb (occurs k report))
            (filter (fun k => negb (k =? "STRUCTURE"))
                    (keys shortform_features)) = true /\
    count_sub "STRUCTURE" report = 1%nat /\
    filter (occurs "STRUCTURE") report_lines =
      [ "  6. UPDATE STRUCTURE: Generate 8-12 main sections with 2-4 subsections each" ] /\
    count_lines (fun l => mem l (table_strings shortform_features))
                report_lines = 0%nat.
Proof.
  intros dev HS st t1 t2 w g.
  split.
  { rewrite (script_emits t1 st), (script_emits t2 st).
    destruct (feed (stdout st) requests); reflexivity. }
  split; [apply script_captured|].
  split; [reflexivity|].
  vm_compute. repeat split.
Qed.

(** * Beyond the report: the statements on any input *)

(** ** Lines of a growing buffer *)







Lemma requests_of_indent (xs : list str) :
  requests_of (map indent xs) = flat_map (fun x => ["  " ++ x; LF]) xs.
Proof.
  unfold requests_of. induction xs as [|x xs IH]; [reflexivity|].
  cbn [map flat_map app]. rewrite IH. reflexivity.
Qed.

(** ** Loop variables *)

Lemma rebind_item_last (x : str) (xs : list str) (g : globals) :
  rebind store_item (x :: xs) g = store_item (last (x :: xs) "") g.
Proof.
  revert x g. induction xs as [|y xs IH]; intros x g.
  - reflexivity.
  - change (rebind store_item (x :: y :: xs) g)
      with (rebind store_item (y :: xs) (store_item x g)).
    rewrite IH. reflexivity.
Qed.

Lemma rebind_fix_last (x : str) (xs : list str) (g : globals) :
  rebind store_fix (x :: xs) g = store_fix (last (x :: xs) "") g.
Proof.
  revert x g. induction xs as [|y xs IH]; intros x g.
  - reflexivity.
  - change (rebind store_fix (x :: y :: xs) g)
      with (rebind store_fix (y :: xs) (store_fix x g)).
    rewrite IH. reflexivity.
Qed.

(** ** The loops, on any list *)

(** X1.  On any stream and from any state, the loop
    [for item in xs: print(f"  {item}")] asks for two writes per element
    of [xs], in list order: the element behind two spaces, then the line
    terminator.  It stops with [OutputWriteFailure] at the first write
    that fails.  When all succeed, [item] is left bound to the last
    element; over an empty list nothing is written and the globals are
    left as they were, so [item] stays unbound if it was.  The loop over
    [fix] behaves the same. *)
Theorem loops_print_each_entry :
  forall (dev : Type) (HS : Stream dev) (xs : list str) (st : state dev),
    for_in xs set_item
      (item <- load "item" var_item ;; print ("  " ++ item))%py st =
    match feed (stdout st) (flat_map (fun x => ["  " ++ x; LF]) xs) with
    | Some d =>
        Ok tt {| world := world st;
                 vars := match xs with
                         | [] => vars st
                         | _ :: _ => store_item (last xs "") (vars st)
                         end;
                 stdout := d |}
    | None => Raise OutputWriteFailure
    end
    /\
    for_in xs set_fix
      (fix_ <- load "fix" var_fix ;; print ("  " ++ fix_))%py st =
    match feed (stdout st) (flat_map (fun x => ["  " ++ x; LF]) xs) with
    | Some d =>
        Ok tt {| world := world st;
                 vars := match xs with
                         | [] => vars st
                         | _ :: _ => store_fix (last xs "") (vars st)
                         end;
                 stdout := d |}
    | None => Raise OutputWriteFailure
    end.
Proof.
  intros dev HS xs st. split.
  - unfold set_item.
    rewrite (emits_for "item" var_item store_item xs
               (fun v g => eq_refl) st).
    rewrite requests_of_indent.
    destruct xs as [|x xs]; [reflexivity|].
    rewrite rebind_item_last. reflexivity.
  - unfold set_fix.
    rewrite (emits_for "fix" var_fix store_fix xs
               (fun v g => eq_refl) st).
    rewrite requests_of_indent.
    destruct xs as [|x xs]; [reflexivity|].
    rewrite rebind_fix_last. reflexivity.
Qed.




(** ** One [print], and the blank line before a header *)



(** ** The whole script on a buffer and on a pipe *)


(** X6.  On a pipe that takes [n] more writes, the script succeeds exactly
    when [n] is at least 52, two writes for each of its 26 [print] calls;
    it then has used 52 of them and sent the whole report after what the
    pipe had been sent before.  With less room it raises
    [OutputWriteFailure]. *)
Theorem run_on_pipe :
  forall (n : nat) (t : str) (w : environment) (g : globals),
    run {| world := w; vars := g; stdout := {| room := n; sent := t |} |} =
    if (52 <=? n)%nat
    then Ok tt {| world := w; vars := globals_after shortform_features;
                  stdout := {| room := n - 52; sent := t ++ report |} |}
    else Raise OutputWriteFailure.
Proof.
  intros n t w g. rewrite run_spec. cbn [stdout world].
  rewrite feed_Pipe, requests_length. cbn [room sent].
  destruct (52 <=? n)%nat; reflexivity.
Qed.

(** * The interpreter's standard output *)

(** ** What a stream has accepted *)





(** ** Text streams *)

Section TextStreams.
Context {raw : Type} `{Stream raw}.


(** A stream that holds nothing back passes every encodable request to
    the descriptor, and fails where the descriptor fails. *)
Lemma feed_text_write_through (c : codec) (p : str) (reqs : list str) :
  forall d : raw,
    forallb (encodable c) reqs = true ->
    feed {| codec_of := c; write_through := true; pending := p;
            descriptor := d |} reqs =
    match feed d reqs with
    | Some r => Some {| codec_of := c; write_through := true; pending := p;
                        descriptor := r |}
    | None => None
    end.
Proof.
  induction reqs as [|s reqs IH]; intros d Henc.
  - reflexivity.
  - cbn [forallb] in Henc. apply andb_true_iff in Henc as [Hs Hrest].
    cbn [feed write TextIO]. unfold text_write.
    cbn [codec_of write_through pending descriptor]. rewrite Hs.
    destruct (write d s) as [r|]; [apply IH; exact Hrest | reflexivity].
Qed.



End TextStreams.

(** ** The requests of the script, as text *)







(** ** Runs on a text stream *)

Section TextRuns.
Context {raw : Type} `{Stream raw}.





End TextRuns.

(** ** Two executions *)



(** ** How a run can end *)


